(** * The agent driver of [main.py]

    A shallow embedding of the deprecated Python driver: the script asks the
    operator for a task and for a "needs plan" reply, optionally runs the
    external agent once with a planning instruction, and then loops: read
    [agent_state/agent_state.json], run the agent with the record's
    [next_step_prompt], stop when the record's [status] is ["completed"].

    Everything the script does to the outside (standard input and output,
    the state file, the agent subprocess) is threaded through an explicit
    [world]; Python exceptions are the error half of a state-and-error
    monad. *)

From Stdlib Require Import ZArith Ascii String List Bool Lia.
From stdpp Require Import base option list strings gmap.

Set Warnings "-register-all".
Local Open Scope string_scope.
Local Open Scope list_scope.

(** ** Python strings

    A [str] is modelled by a Rocq [string]: a sequence of code points below
    256.  On that range [str.isspace] and [str.lower] are the two tables
    below. *)

Module PyStr.

(** [str.isspace] on one code point: TAB, LF, VT, FF, CR, the four
    separators FS, GS, RS, US, the space, NEL and the no-break space. *)
Definition isspace (c : ascii) : bool :=
  let n := nat_of_ascii c in
  (((9 <=? n) && (n <=? 13)) || ((28 <=? n) && (n <=? 32))
   || (n =? 133) || (n =? 160))%nat.

(** [str.lower] on one code point: A-Z and the Latin-1 capitals
    (U+00C0-U+00DE without the multiplication sign U+00D7) move up by 32. *)
Definition lower_char (c : ascii) : ascii :=
  let n := nat_of_ascii c in
  if (((65 <=? n) && (n <=? 90))
      || ((192 <=? n) && (n <=? 222) && negb (n =? 215)))%nat
  then ascii_of_nat (n + 32) else c.

Fixpoint lower (s : string) : string :=
  match s with
  | EmptyString => EmptyString
  | String c s' => String (lower_char c) (lower s')
  end.

Fixpoint lstrip (s : string) : string :=
  match s with
  | EmptyString => EmptyString
  | String c s' => if isspace c then lstrip s' else s
  end.

Fixpoint rstrip (s : string) : string :=
  match s with
  | EmptyString => EmptyString
  | String c s' =>
      match rstrip s' with
      | EmptyString => if isspace c then EmptyString else String c EmptyString
      | r => String c r
      end
  end.

(** [s.strip()] with no argument: whitespace removed at both ends. *)
Definition strip (s : string) : string := rstrip (lstrip s).


End PyStr.

(** ** Exceptions

    The classes the script can meet, with the part of Python's class
    hierarchy that decides which [except] clause catches what. *)

Inductive exn_class :=
| Exception
| TypeError
| ValueError
| JSONDecodeError
| UnicodeDecodeError
| LookupError
| KeyError
| OSError
| FileNotFoundError
| PermissionError
| IsADirectoryError
| EOFError.

Definition exn_class_eqb (a b : exn_class) : bool :=
  match a, b with
  | Exception, Exception | TypeError, TypeError | ValueError, ValueError
  | JSONDecodeError, JSONDecodeError | UnicodeDecodeError, UnicodeDecodeError
  | LookupError, LookupError | KeyError, KeyError | OSError, OSError
  | FileNotFoundError, FileNotFoundError | PermissionError, PermissionError
  | IsADirectoryError, IsADirectoryError | EOFError, EOFError => true
  | _, _ => false
  end.

(** The direct base class; [Exception] is the root of this fragment. *)
Definition base_class (c : exn_class) : option exn_class :=
  match c with
  | Exception => None
  | TypeError | ValueError | LookupError | OSError | EOFError => Some Exception
  | JSONDecodeError | UnicodeDecodeError => Some ValueError
  | KeyError => Some LookupError
  | FileNotFoundError | PermissionError | IsADirectoryError => Some OSError
  end.

(** [issubclass c k]: [k] is [c] or one of its ancestors.  The hierarchy is
    three levels deep. *)
Definition issubclass (c k : exn_class) : bool :=
  exn_class_eqb c k
  || match base_class c with
     | None => false
     | Some b =>
         exn_class_eqb b k
         || match base_class b with
            | None => false
            | Some b' => exn_class_eqb b' k
            end
     end.

(** ** Python values

    What [json.load] can return: [None], booleans, integers, floats (their
    64 bits, never inspected here), strings, lists and dictionaries with
    string keys. *)

Inductive pyval :=
| PNone
| PBool (b : bool)
| PInt (z : Z)
| PFloat (bits : Z)
| PStr (s : string)
| PList (l : list pyval)
| PDict (d : gmap string pyval).

(** ** The outside world *)

(** The state file, as [open] followed by [json.load] sees it. *)
Inductive state_file :=
| NoFile                      (* [open] raises FileNotFoundError *)
| Unreadable (e : exn_class)  (* [open] or the read raises something else *)
| NotJson                     (* the text is rejected: JSONDecodeError *)
| Json (v : pyval).           (* the text decodes to [v] *)

(** [subprocess.CompletedProcess]. *)
Record CompletedProcess := {
  args : list string;
  returncode : Z;
  stdout : string;
  stderr : string
}.

(** What becomes of one [subprocess.run]: the call raises (the executable is
    missing, an argument holds a NUL, the output is not text), or the child
    runs and exits. *)
Inductive child :=
| Fails (e : exn_class)
| Exits (rc : Z) (out err : string).

(** The argument of a [print]: a plain string, or an f-string with one
    formatted value. *)
Inductive text :=
| Str (s : string)
| FStr (before : string) (v : pyval) (after : string).

(** A Python call returns a value or raises. *)
Inductive result (A : Type) :=
| Ok (a : A)
| Raised (e : exn_class).
Arguments Ok {A} a.
Arguments Raised {A} e.

Inductive event :=
| EvDeprecationWarning                 (* [warnings.warn] at import time *)
| EvStderr                             (* the deprecation notice on stderr *)
| EvInput (prompt : string) (line : option string)
| EvPrint (t : text)
| EvRead (r : result pyval)            (* the state file opened and loaded *)
| EvSpawn (cmd : list string) (c : child).

(** The agent is the environment: for the [k]-th subprocess of the run
    (counting from 0), the command line and the state file it finds, it
    decides how the subprocess ends and what the state file holds
    afterwards. *)
Definition agent_fn : Type :=
  nat -> list string -> state_file -> child * state_file.

Record world := {
  agent : agent_fn;
  file : state_file;
  stdin : list string;          (* the lines the operator will type *)
  trace : list event            (* oldest first *)
}.

Definition is_spawn (e : event) : bool :=
  match e with EvSpawn _ _ => true | _ => false end.

Definition is_read (e : event) : bool :=
  match e with EvRead _ => true | _ => false end.

(** The command lines run so far, oldest first. *)
Fixpoint spawned (tr : list event) : list (list string) :=
  match tr with
  | [] => []
  | EvSpawn cmd _ :: tr' => cmd :: spawned tr'
  | _ :: tr' => spawned tr'
  end.

(** The number of subprocesses run so far. *)
Definition calls (w : world) : nat := length (spawned (trace w)).

(** One more event at the end of the trace. *)
Definition emit (e : event) (w : world) : world :=
  {| agent := agent w; file := file w; stdin := stdin w;
     trace := trace w ++ [e] |}.

(** ** The monad: state passing with exceptions *)

Definition py (A : Type) : Type := world -> result A * world.

#[export] Instance py_ret : MRet py := fun A a w => (Ok a, w).

#[export] Instance py_bind : MBind py := fun A B f m w =>
  match m w with
  | (Ok a, w') => f a w'
  | (Raised e, w') => (Raised e, w')
  end.

Definition raise {A} (e : exn_class) : py A := fun w => (Raised e, w).

Definition lift {A} (r : result A) : py A := fun w => (r, w).

Definition log (e : event) : py unit := fun w => (Ok tt, emit e w).

(** [try: body except (classes): handler]. *)
Definition try_except {A} (body : py A) (classes : list exn_class)
    (handler : py A) : py A := fun w =>
  match body w with
  | (Raised e, w') =>
      if existsb (issubclass e) classes then handler w' else (Raised e, w')
  | r => r
  end.

(** ** Library calls *)

(** [print(t)]. *)
Definition print (t : text) : py unit := log (EvPrint t).

(** [input(prompt)]: the prompt is written, one line is taken from standard
    input; at end of input the call raises EOFError. *)
Definition input (prompt : string) : py string := fun w =>
  match stdin w with
  | [] =>
      (Raised EOFError,
       {| agent := agent w; file := file w; stdin := [];
          trace := trace w ++ [EvInput prompt None] |})
  | line :: rest =>
      (Ok line,
       {| agent := agent w; file := file w; stdin := rest;
          trace := trace w ++ [EvInput prompt (Some line)] |})
  end.

(** [with open(path, 'r') as f: json.load(f)]. *)
Definition load (f : state_file) : result pyval :=
  match f with
  | NoFile => Raised FileNotFoundError
  | Unreadable e => Raised e
  | NotJson => Raised JSONDecodeError
  | Json v => Ok v
  end.

Definition json_load_file : py pyval := fun w =>
  (load (file w), emit (EvRead (load (file w))) w).

(** [subprocess.run(cmd, capture_output=True, text=True)]: no [check=True],
    so the exit status never raises. *)
Definition subprocess_run (cmd : list string) : py CompletedProcess := fun w =>
  let '(c, f) := agent w (calls w) cmd (file w) in
  let w' := {| agent := agent w; file := f; stdin := stdin w;
               trace := trace w ++ [EvSpawn cmd c] |} in
  match c with
  | Fails e => (Raised e, w')
  | Exits rc out err =>
      (Ok {| args := cmd; returncode := rc; stdout := out; stderr := err |}, w')
  end.

(** [v[key]] for a string key. *)
Definition subscript (v : pyval) (key : string) : result pyval :=
  match v with
  | PDict d =>
      match d !! key with
      | Some x => Ok x
      | None => Raised KeyError
      end
  | _ => Raised TypeError
  end.

(** [v == s] for a string literal [s]. *)
Definition eq_str (v : pyval) (s : string) : bool :=
  match v with
  | PStr s' => String.eqb s' s
  | _ => false
  end.

(** ** The script *)

Definition system_prompt : string :=
  "You are an expert software engineer with deep knowledge of TDD, Python, Typescript. Execute the following tasks with surgical precision while taking care not to overengineer solutions.".

Definition command (prompt : string) : list string :=
  ["claude"; "-p"; prompt;
   "--output-format"; "text";
   "--append-system-prompt"; system_prompt;
   "--allowedTools"; "mcp__linear-server__*"; "mcp__context7__*";
   "Bash"; "Read"; "Write"; "Edit"; "Remove"].

(** [run_claude_code(prompt)].  The prompt comes from the state file and can
    be any value: the f-string prints it whatever it is, and
    [subprocess.run] raises TypeError on an argument that is not a
    string. *)
Definition run_claude_code (prompt : pyval) : py string :=
  print (FStr "Running Claude Code with prompt: " prompt "");;
  match prompt with
  | PStr p =>
      result ← subprocess_run (command p);
      mret (stdout result)
  | _ => raise TypeError
  end.

Definition check_state : py pyval :=
  try_except json_load_file [FileNotFoundError; JSONDecodeError] (mret PNone).

(** What [check_state] returns, by the [except] clause: the two caught
    classes become [None], a loaded value is returned, anything else is
    raised again. *)
Definition reader_result (f : state_file) : result pyval :=
  match load f with
  | Raised e =>
      if issubclass e FileNotFoundError || issubclass e JSONDecodeError
      then Ok PNone else Raised e
  | r => r
  end.

(** [NEED_PLAN]: the two [input] calls and the comparison. *)
Definition need_plan (reply : string) : bool :=
  String.eqb (PyStr.lower (PyStr.strip reply)) "true".

Definition read_inputs : py (string * bool) :=
  linear_issue ← input "Enter the initial prompt for Claude Code: ";
  reply ← input "Do you need a plan? (True/False): ";
  mret (linear_issue, need_plan reply).

(** [if NEED_PLAN: ...]. *)
Definition planning (linear_issue : string) (NEED_PLAN : bool) : py unit :=
  if NEED_PLAN then
    print (Str "Generating plan...");;
    out ← run_claude_code (PStr ("/make_plan " +:+ linear_issue));
    print (Str out)
  else mret tt.

(** One pass through the body of [while continue_flag:], with [iteration]
    already incremented; the result is [continue_flag] at the end of the
    body. *)
Definition loop_body (iteration : Z) : py bool :=
  state ← check_state;
  print (FStr "Starting command... (Iteration " (PInt iteration) ")");;
  prompt ← lift (subscript state "next_step_prompt");
  output ← run_claude_code prompt;
  print (Str output);;
  status ← lift (subscript state "status");
  if eq_str status "completed" then
    print (Str "Status file indicates completion. Stopping.");;
    mret false
  else mret true.

(** The [while] loop, for at most [fuel] passes.  [Some tt]: the loop was
    left because [continue_flag] became false; [None]: the loop is still
    running when the fuel is used up. *)
Fixpoint run_loop (fuel : nat) (iteration : Z) : py (option unit) :=
  match fuel with
  | O => mret None
  | S fuel' =>
      let iteration := (iteration + 1)%Z in
      continue_flag ← loop_body iteration;
      if continue_flag : bool then run_loop fuel' iteration
      else mret (Some tt)
  end.

(** The whole script. *)
Definition main (fuel : nat) : py (option unit) :=
  log EvDeprecationWarning;;
  log EvStderr;;
  '(linear_issue, NEED_PLAN) ← read_inputs;
  planning linear_issue NEED_PLAN;;
  run_loop fuel 0.

(** ** Records and runs the properties speak about *)

(** The state records on which a pass of the loop finds what it looks up: a
    dictionary whose [next_step_prompt] is a string and which has a
    [status].  The result is the prompt and the status. *)
Definition run_state (f : state_file) : option (string * pyval) :=
  match f with
  | Json (PDict d) =>
      match d !! "next_step_prompt", d !! "status" with
      | Some (PStr p), Some s => Some (p, s)
      | _, _ => None
      end
  | _ => None
  end.



(** The events of one pass of the loop that reads a record with prompt [p]
    and runs the agent to its exit. *)
Definition pass_events (iteration : Z) (v : pyval) (p : string)
    (rc : Z) (out err : string) : list event :=
  [EvRead (Ok v);
   EvPrint (FStr "Starting command... (Iteration " (PInt iteration) ")");
   EvPrint (FStr "Running Claude Code with prompt: " (PStr p) "");
   EvSpawn (command p) (Exits rc out err);
   EvPrint (Str out)].



(** The world after the deprecation notice and the two answers. *)
Definition after_inputs (w : world) (task reply : string) (rest : list string)
    : world :=
  {| agent := agent w; file := file w; stdin := rest;
     trace := trace w
              ++ [EvDeprecationWarning; EvStderr;
                  EvInput "Enter the initial prompt for Claude Code: " (Some task);
                  EvInput "Do you need a plan? (True/False): " (Some reply)] |}.

(** ** Sample worlds *)

Definition record (p s : string) : pyval :=
  PDict (<["next_step_prompt" := PStr p]> (<["status" := PStr s]> ∅)).

(** An agent that exits with status [rc] and leaves the state file alone. *)
Definition idle_agent (rc : Z) : agent_fn :=
  fun _ _ f => (Exits rc "ok" "", f).

(** An agent that declares the work done: it rewrites the state file to
    [{"status": "completed"}]. *)
Definition finishing_agent : agent_fn :=
  fun _ _ _ =>
    (Exits 0 "done" "", Json (PDict (<["status" := PStr "completed"]> ∅))).

(** An agent that declares the work done and keeps a prompt in the record. *)
Definition closing_agent : agent_fn :=
  fun _ _ _ => (Exits 0 "done" "", Json (record "nothing left" "completed")).

Definition world_of (a : agent_fn) (f : state_file) (lines : list string)
    : world :=
  {| agent := a; file := f; stdin := lines; trace := [] |}.

(** ** Further notions for the properties of whole runs *)

Definition is_dict (v : pyval) : bool :=
  match v with PDict _ => true | _ => false end.

Definition is_str (v : pyval) : bool :=
  match v with PStr _ => true | _ => false end.

(** The world after one [subprocess.run]: the attempt is on the trace and
    the state file is what the agent left. *)
Definition after_spawn (cmd : list string) (c : child) (f' : state_file)
    (w : world) : world :=
  {| agent := agent w; file := f'; stdin := stdin w;
     trace := trace w ++ [EvSpawn cmd c] |}.

(** What reached standard output through [print], oldest first. *)
Fixpoint printed (tr : list event) : list text :=
  match tr with
  | [] => []
  | EvPrint t :: tr' => t :: printed tr'
  | _ :: tr' => printed tr'
  end.

(** The iteration number an event announces, when it is the line
    "Starting command... (Iteration n)". *)
Definition announced (e : event) : option Z :=
  match e with
  | EvPrint (FStr before (PInt n) after) =>
      if String.eqb before "Starting command... (Iteration "
         && String.eqb after ")"
      then Some n else None
  | _ => None
  end.

(** The iteration numbers announced on a trace, oldest first. *)
Fixpoint iterations (tr : list event) : list Z :=
  match tr with
  | [] => []
  | e :: tr' =>
      match announced e with
      | Some n => n :: iterations tr'
      | None => iterations tr'
      end
  end.

(** The number of reads of the state file on a trace. *)
Fixpoint reads (tr : list event) : nat :=
  match tr with
  | [] => 0
  | EvRead _ :: tr' => S (reads tr')
  | _ :: tr' => reads tr'
  end.

(** A command line of the shape [run_claude_code] builds. *)
Definition is_command (cmd : list string) : Prop :=
  exists p, cmd = command p.

(** An agent that never touches the state file. *)
Definition keeps_file (a : agent_fn) : Prop :=
  forall k cmd f, snd (a k cmd f) = f.

(** A subprocess outcome without what the script never looks at: the exit
    status and the captured standard error. *)
Definition visible (c : child) : child :=
  match c with
  | Fails e => Fails e
  | Exits _ out _ => Exits 0 out ""
  end.

Definition visible_event (e : event) : event :=
  match e with
  | EvSpawn cmd c => EvSpawn cmd (visible c)
  | _ => e
  end.

(** Two agents that differ at most in exit status and standard error. *)
Definition same_visible (a1 a2 : agent_fn) : Prop :=
  forall k cmd f,
    visible (fst (a1 k cmd f)) = visible (fst (a2 k cmd f))
    /\ snd (a1 k cmd f) = snd (a2 k cmd f).

(** Two worlds that differ at most in the exit status and standard error of
    their subprocesses, past and future. *)
Definition alike (w1 w2 : world) : Prop :=
  same_visible (agent w1) (agent w2)
  /\ file w1 = file w2
  /\ stdin w1 = stdin w2
  /\ map visible_event (trace w1) = map visible_event (trace w2).

(** An agent that cannot be started: every [subprocess.run] raises [e]. *)
Definition broken_agent (e : exn_class) : agent_fn :=
  fun _ _ f => (Fails e, f).

(** An agent that exits with status [rc], writes [err] to standard error and
    leaves the state file alone. *)
Definition noisy_agent (rc : Z) (err : string) : agent_fn :=
  fun _ _ f => (Exits rc "ok" err, f).

(** [n] consecutive integers from [z]. *)
Fixpoint count_from (z : Z) (n : nat) : list Z :=
  match n with
  | O => []
  | S n' => z :: count_from (z + 1) n'
  end.

(** Two runs of the same task against agents that differ in exit status and
    standard error only. *)
Definition calm_run : world :=
  world_of (noisy_agent 0 "") (Json (record "run tests" "completed"))
    ["Fix bug #42"; "true"].

Definition loud_run : world :=
  world_of (noisy_agent 2 "Traceback: boom")
    (Json (record "run tests" "completed")) ["Fix bug #42"; "true"].

(** A computation that cannot tell two such worlds apart: it returns the
    same result in both and leaves them alike. *)
Definition respects {A} (m : py A) : Prop :=
  forall w1 w2,
    alike w1 w2 ->
    fst (m w1) = fst (m w2) /\ alike (snd (m w1)) (snd (m w2)).

(** ** Events and traces *)

Lemma spawned_app (tr tr' : list event) :
  spawned (tr ++ tr') = spawned tr ++ spawned tr'.
Proof.
  induction tr as [|e tr IH]; [reflexivity|].
  destruct e; simpl; rewrite IH; reflexivity.
Qed.

Lemma calls_emit (e : event) (w : world) :
  is_spawn e = false -> calls (emit e w) = calls w.
Proof.
  intros He. unfold calls, emit; simpl. rewrite spawned_app.
  destruct e; simpl in *; try discriminate; rewrite app_nil_r; reflexivity.
Qed.

(** ** The monad *)

Lemma bind_unfold {A B} (m : py A) (f : A -> py B) (w : world) :
  (m ≫= f) w =
  match m w with
  | (Ok a, w') => f a w'
  | (Raised e, w') => (Raised e, w')
  end.
Proof. reflexivity. Qed.

(** ** The state reader *)

Lemma check_state_eq (w : world) :
  check_state w = (reader_result (file w), emit (EvRead (load (file w))) w).
Proof.
  unfold check_state, try_except, json_load_file, reader_result.
  destruct (load (file w)) as [v|e]; [reflexivity|].
  simpl. rewrite orb_false_r.
  destruct (issubclass e FileNotFoundError || issubclass e JSONDecodeError);
    reflexivity.
Qed.

Lemma run_state_inv (f : state_file) (p : string) (s : pyval) :
  run_state f = Some (p, s) ->
  exists d, f = Json (PDict d)
            /\ d !! "next_step_prompt" = Some (PStr p)
            /\ d !! "status" = Some s.
Proof.
  unfold run_state. intros H.
  destruct f as [| | |v]; try discriminate.
  destruct v as [| | | | | |d]; try discriminate.
  exists d.
  destruct (d !! "next_step_prompt") as [[| | | |q| |]|]; try discriminate.
  destruct (d !! "status") as [s'|]; try discriminate.
  injection H as -> ->. auto.
Qed.

(** ** The agent invoker *)

Lemma run_claude_code_exits (w : world) (p : string) rc out err f' :
  agent w (calls w) (command p) (file w) = (Exits rc out err, f') ->
  run_claude_code (PStr p) w =
  (Ok out,
   {| agent := agent w; file := f'; stdin := stdin w;
      trace := trace w
               ++ [EvPrint (FStr "Running Claude Code with prompt: " (PStr p) "");
                   EvSpawn (command p) (Exits rc out err)] |}).
Proof.
  intros Ha. unfold run_claude_code.
  rewrite bind_unfold. unfold print, log.
  rewrite bind_unfold. unfold subprocess_run.
  rewrite calls_emit by reflexivity.
  change (file (emit _ w)) with (file w).
  change (agent (emit _ w)) with (agent w).
  rewrite Ha. simpl. rewrite <- app_assoc. reflexivity.
Qed.


(** Whatever a pass of the loop does, it starts by reading the state file,
    reads it once, and runs at most one subprocess. *)
Ltac pass_ends :=
  intros [= <- <-]; eexists; simpl; rewrite <- ?app_assoc; simpl; auto.

Lemma loop_body_trace (iteration : Z) (w w' : world) (r : result bool) :
  loop_body iteration w = (r, w') ->
  exists tl, trace w' = trace w ++ EvRead (load (file w)) :: tl
             /\ length (spawned tl) <= 1
             /\ forallb (fun e => negb (is_read e)) tl = true.
Proof.
  unfold loop_body. rewrite bind_unfold, check_state_eq.
  destruct (reader_result (file w)) as [state|e];
    [|intros [= <- <-]; exists []; simpl; auto].
  rewrite bind_unfold. unfold print at 1, log at 1.
  rewrite bind_unfold. unfold lift at 1.
  destruct (subscript state "next_step_prompt") as [prompt|e];
    [|pass_ends].
  rewrite bind_unfold. unfold run_claude_code.
  rewrite bind_unfold. unfold print at 1, log at 1.
  destruct prompt as [| | | |p| |];
    try (pass_ends).
  rewrite bind_unfold. unfold subprocess_run.
  destruct (agent _ _ _ _) as [[e|rc out err] f'];
    [pass_ends|].
  cbn [mret py_ret stdout].
  rewrite bind_unfold. unfold print at 1, log at 1.
  rewrite bind_unfold. unfold lift.
  destruct (subscript state "status") as [status|e];
    [|pass_ends].
  destruct (eq_str status "completed").
  - rewrite bind_unfold. unfold print, log.
    pass_ends.
  - pass_ends.
Qed.

Lemma run_loop_step (fuel : nat) (iteration : Z) (w : world) :
  run_loop (S fuel) iteration w =
  match loop_body (iteration + 1) w with
  | (Ok true, w') => run_loop fuel (iteration + 1) w'
  | (Ok false, w') => (Ok (Some tt), w')
  | (Raised e, w') => (Raised e, w')
  end.
Proof.
  cbn [run_loop]. rewrite bind_unfold.
  destruct (loop_body (iteration + 1) w) as [[[|]|e] w']; reflexivity.
Qed.

(** A run of the loop only adds events. *)
Lemma run_loop_extends (fuel : nat) :
  forall iteration w r w',
    run_loop fuel iteration w = (r, w') ->
    exists tl, trace w' = trace w ++ tl.
Proof.
  induction fuel as [|fuel IH]; intros iteration w r w'.
  - intros [= <- <-]. exists []. rewrite app_nil_r. reflexivity.
  - rewrite run_loop_step.
    destruct (loop_body (iteration + 1) w) as [[[|]|e] w1] eqn:Hb;
      destruct (loop_body_trace _ _ _ _ Hb) as (tl & Htl & _).
    + intros H. destruct (IH _ _ _ _ H) as (tl' & Htl').
      eexists. rewrite Htl', Htl, <- app_assoc. reflexivity.
    + intros [= <- <-]. eauto.
    + intros [= <- <-]. eauto.
Qed.

(** The first thing a run with fuel left does is to read the state file. *)
Lemma run_loop_reads_first (fuel : nat) (iteration : Z) (w w' : world) r :
  run_loop (S fuel) iteration w = (r, w') ->
  exists tl, trace w' = trace w ++ EvRead (load (file w)) :: tl.
Proof.
  rewrite run_loop_step.
  destruct (loop_body (iteration + 1) w) as [[[|]|e] w1] eqn:Hb;
    destruct (loop_body_trace _ _ _ _ Hb) as (tl & Htl & _).
  - intros H. destruct (run_loop_extends _ _ _ _ _ H) as (tl' & Htl').
    exists (tl ++ tl'). rewrite Htl', Htl, <- app_assoc. reflexivity.
  - intros [= <- <-]. eauto.
  - intros [= <- <-]. eauto.
Qed.


(** ** Passes that fail before the agent is run *)

(** When the lookup of [next_step_prompt] raises, the pass ends there: the
    exception leaves the loop, and no subprocess has been run. *)
Lemma loop_body_no_prompt (iteration : Z) (w : world) (state : pyval) e :
  reader_result (file w) = Ok state ->
  subscript state "next_step_prompt" = Raised e ->
  loop_body iteration w =
  (Raised e,
   emit (EvPrint (FStr "Starting command... (Iteration " (PInt iteration) ")"))
     (emit (EvRead (load (file w))) w)).
Proof.
  intros Hr Hp. unfold loop_body.
  rewrite bind_unfold, check_state_eq, Hr.
  rewrite bind_unfold. unfold print, log.
  rewrite bind_unfold. unfold lift. rewrite Hp. reflexivity.
Qed.

(** ** Start-up: the two questions and the optional plan *)

Lemma read_inputs_two_lines (w : world) (task reply : string) rest :
  stdin w = task :: reply :: rest ->
  read_inputs w =
  (Ok (task, need_plan reply),
   {| agent := agent w; file := file w; stdin := rest;
      trace := trace w
               ++ [EvInput "Enter the initial prompt for Claude Code: " (Some task);
                   EvInput "Do you need a plan? (True/False): " (Some reply)] |}).
Proof.
  intros Hin. unfold read_inputs.
  rewrite bind_unfold. unfold input at 1. rewrite Hin.
  rewrite bind_unfold. unfold input. cbn.
  rewrite <- app_assoc. reflexivity.
Qed.

Lemma main_unfold (fuel : nat) (w : world) (task reply : string) rest :
  stdin w = task :: reply :: rest ->
  main fuel w =
  match planning task (need_plan reply) (after_inputs w task reply rest) with
  | (Ok _, w') => run_loop fuel 0 w'
  | (Raised e, w') => (Raised e, w')
  end.
Proof.
  intros Hin. unfold main.
  rewrite bind_unfold. unfold log at 1.
  rewrite bind_unfold. unfold log at 1.
  rewrite bind_unfold.
  erewrite read_inputs_two_lines by exact Hin.
  rewrite bind_unfold. cbn [trace emit agent file stdin].
  rewrite <- !app_assoc. reflexivity.
Qed.

(** Without a plan the loop starts right after the two answers. *)
Lemma main_declined (fuel : nat) (w : world) (task reply : string) rest :
  stdin w = task :: reply :: rest ->
  need_plan reply = false ->
  main fuel w = run_loop fuel 0 (after_inputs w task reply rest).
Proof.
  intros Hin Hn. rewrite (main_unfold _ _ _ _ _ Hin), Hn. reflexivity.
Qed.

(** ** The state reader: claims C5 and C8 *)

(** The value [check_state] returns depends on the state file alone. *)
Lemma check_state_by_file (w1 w2 : world) :
  file w1 = file w2 -> fst (check_state w1) = fst (check_state w2).
Proof. intros H. rewrite !check_state_eq. simpl. rewrite H. reflexivity. Qed.

(** An exception that is neither a FileNotFoundError nor a JSONDecodeError
    passes through [check_state]: the [except] clause names those two classes
    only. *)
Lemma check_state_reraises (w : world) (e : exn_class) :
  file w = Unreadable e ->
  issubclass e FileNotFoundError = false ->
  issubclass e JSONDecodeError = false ->
  fst (check_state w) = Raised e.
Proof.
  intros Hf H1 H2. rewrite check_state_eq. unfold reader_result.
  rewrite Hf. simpl. rewrite H1, H2. reflexivity.
Qed.



(** C8: reading the state file is idempotent: the read leaves the file as it
    is, and a second read right after the first returns the same value (the
    same parsed record, [None] both times, or the same exception). *)
Theorem check_state_idempotent (w : world) :
  file (snd (check_state w)) = file w
  /\ fst (check_state (snd (check_state w))) = fst (check_state w).
Proof.
  assert (Hf : file (snd (check_state w)) = file w)
    by (rewrite check_state_eq; reflexivity).
  split; [exact Hf|]. apply check_state_by_file, Hf.
Qed.

(** ** The agent invoker: claim C6 *)

(** C6: for every prompt, once the subprocess has exited [run_claude_code]
    returns the captured standard output, whatever the exit status [rc] is:
    no exception, no second run, no different result for a non-zero
    status. *)
Theorem run_claude_code_returns_stdout
    (w : world) (p : string) (rc : Z) (out err : string) (f' : state_file) :
  agent w (calls w) (command p) (file w) = (Exits rc out err, f') ->
  exists w',
    run_claude_code (PStr p) w = (Ok out, w')
    /\ spawned (trace w') = spawned (trace w) ++ [command p]
    /\ file w' = f'.
Proof.
  intros Ha. eexists. split; [apply run_claude_code_exits, Ha|].
  split; [|reflexivity].
  cbn [trace]. rewrite spawned_app. reflexivity.
Qed.

Lemma run_claude_code_returns_stdout_witness :
  exists w',
    run_claude_code (PStr "run tests") (world_of (idle_agent 1) NoFile [])
    = (Ok "ok", w')
    /\ spawned (trace w') = [] ++ [command "run tests"]
    /\ file w' = NoFile.
Proof.
  apply (run_claude_code_returns_stdout
           (world_of (idle_agent 1) NoFile []) "run tests" 1 "ok" "" NoFile).
  reflexivity.
Defined.

(** ** One pass of the loop on a state record: claims C3, C10 and C2 *)

Section OnRecord.

(** The pass starts in a world [w] whose state file decodes to [v], a record
    with prompt [p] and status [s]; the agent, run with that prompt, exits
    with status [rc] and output [out], and leaves [f'] as the state file. *)
Variables (w : world) (v : pyval) (p : string) (s : pyval).
Variables (rc : Z) (out err : string) (f' : state_file).
Hypothesis Hfile : file w = Json v.
Hypothesis Hrecord : run_state (Json v) = Some (p, s).
Hypothesis Hexit :
  agent w (calls w) (command p) (file w) = (Exits rc out err, f').

(** The pass runs to its end: the agent is run once with the record's
    prompt, and the flag is decided by the status that was read at the top
    of the pass. *)
Lemma loop_body_record (iteration : Z) :
  loop_body iteration w =
  (Ok (negb (eq_str s "completed")),
   {| agent := agent w; file := f'; stdin := stdin w;
      trace := trace w ++ pass_events iteration v p rc out err
               ++ (if eq_str s "completed"
                   then [EvPrint (Str "Status file indicates completion. Stopping.")]
                   else []) |}).
Proof.
  destruct (run_state_inv _ _ _ Hrecord) as (d & Hv & Hp & Hs).
  unfold loop_body.
  rewrite bind_unfold, check_state_eq. unfold reader_result.
  rewrite Hfile. cbn [load].
  rewrite bind_unfold. unfold print at 1, log at 1.
  rewrite bind_unfold. unfold lift at 1.
  injection Hv as Hv. rewrite Hv. unfold subscript at 1. rewrite Hp.
  rewrite bind_unfold.
  erewrite run_claude_code_exits; last first.
  { rewrite !calls_emit by reflexivity. exact Hexit. }
  rewrite bind_unfold. unfold print at 1, log at 1.
  rewrite bind_unfold. unfold lift, subscript. rewrite Hs.
  unfold pass_events.
  destruct (eq_str s "completed").
  - rewrite bind_unfold. unfold print, log, emit. cbn.
    rewrite <- !app_assoc. reflexivity.
  - unfold emit. cbn. rewrite <- !app_assoc. reflexivity.
Qed.

(** C3: when the state read at the top of a pass is a valid record whose
    status is not ["completed"], the pass runs the agent exactly once, with
    the record's prompt, between that read and the next: its events are the
    read, two progress lines, one subprocess and the print of its output,
    the flag stays true, and whatever the loop does next begins with the
    next read of the state file. *)
Theorem one_invocation_per_read (iteration : Z) :
  eq_str s "completed" = false ->
  exists w',
    loop_body iteration w = (Ok true, w')
    /\ trace w' = trace w ++ pass_events iteration v p rc out err
    /\ spawned (pass_events iteration v p rc out err) = [command p]
    /\ filter is_read (pass_events iteration v p rc out err) = [EvRead (Ok v)]
    /\ forall fuel r w'',
         run_loop (S fuel) iteration w' = (r, w'') ->
         exists tl, trace w'' = trace w' ++ EvRead (load f') :: tl.
Proof.
  intros Hs. eexists. split.
  { rewrite loop_body_record, Hs. reflexivity. }
  cbn [trace file]. rewrite app_nil_r.
  repeat split.
  intros fuel r w'' H. apply run_loop_reads_first in H. exact H.
Qed.

(** C10: the status is not checked against the closed set of labels: for a
    record whose status is any value other than the string ["completed"]
    (["failed"], ["Completed"], a number, ...), the pass neither stops the
    loop nor raises, and the loop goes on to another pass. *)
Theorem unknown_status_continues (fuel : nat) (iteration : Z) :
  s <> PStr "completed" ->
  exists w',
    loop_body (iteration + 1) w = (Ok true, w')
    /\ file w' = f'
    /\ run_loop (S fuel) iteration w = run_loop fuel (iteration + 1) w'.
Proof.
  intros Hs.
  assert (Hc : eq_str s "completed" = false).
  { destruct s as [| | | |s'| |]; try reflexivity.
    simpl. destruct (String.eqb_spec s' "completed"); congruence. }
  pose proof (loop_body_record (iteration + 1)) as Hb.
  rewrite Hc in Hb. eexists. split; [exact Hb|]. split; [reflexivity|].
  rewrite run_loop_step, Hb. reflexivity.
Qed.

(** C2 (the script fails it): the pass does not read the state again after
    the agent has run.  When the record read at the top of the pass is not
    completed and the agent leaves a record whose status is ["completed"], a
    read after the invocation would return that record, yet the flag stays
    true and the loop enters another pass; if the new record has no
    [next_step_prompt], that pass raises KeyError. *)
Theorem completion_check_uses_earlier_read
    (fuel : nat) (iteration : Z) (v' : pyval) :
  eq_str s "completed" = false ->
  f' = Json v' ->
  subscript v' "status" = Ok (PStr "completed") ->
  exists w',
    loop_body (iteration + 1) w = (Ok true, w')
    /\ fst (check_state w') = Ok v'
    /\ run_loop (S fuel) iteration w = run_loop fuel (iteration + 1) w'
    /\ (subscript v' "next_step_prompt" = Raised KeyError ->
        fst (run_loop (S (S fuel)) iteration w) = Raised KeyError).
Proof.
  intros Hs Hf' Hv'.
  pose proof (loop_body_record (iteration + 1)) as Hb.
  rewrite Hs in Hb. cbn [negb] in Hb.
  eexists. split; [exact Hb|].
  split; [rewrite check_state_eq, Hf'; reflexivity|].
  split; [rewrite run_loop_step, Hb; reflexivity|].
  intros Hk. rewrite run_loop_step, Hb, run_loop_step.
  erewrite loop_body_no_prompt; [reflexivity| |exact Hk].
  cbn [file]. rewrite Hf'. reflexivity.
Qed.

End OnRecord.

Lemma one_invocation_per_read_witness :
  exists w',
    loop_body 1
      (world_of (idle_agent 0) (Json (record "run tests" "in_progress")) [])
    = (Ok true, w')
    /\ trace w'
       = [] ++ pass_events 1 (record "run tests" "in_progress") "run tests"
                 0 "ok" ""
    /\ spawned (pass_events 1 (record "run tests" "in_progress") "run tests"
                  0 "ok" "")
       = [command "run tests"]
    /\ filter is_read
         (pass_events 1 (record "run tests" "in_progress") "run tests"
            0 "ok" "")
       = [EvRead (Ok (record "run tests" "in_progress"))]
    /\ forall fuel r w'',
         run_loop (S fuel) 1 w' = (r, w'') ->
         exists tl,
           trace w''
           = trace w'
             ++ EvRead (load (Json (record "run tests" "in_progress"))) :: tl.
Proof.
  apply (one_invocation_per_read
           (world_of (idle_agent 0) (Json (record "run tests" "in_progress")) [])
           (record "run tests" "in_progress") "run tests" (PStr "in_progress")
           0 "ok" "" (Json (record "run tests" "in_progress")));
    reflexivity.
Defined.

Lemma unknown_status_continues_witness :
  exists w',
    loop_body (0 + 1)
      (world_of (idle_agent 0) (Json (record "run tests" "Completed")) [])
    = (Ok true, w')
    /\ file w' = Json (record "run tests" "Completed")
    /\ run_loop 3 0
         (world_of (idle_agent 0) (Json (record "run tests" "Completed")) [])
       = run_loop 2 (0 + 1) w'.
Proof.
  apply (unknown_status_continues
           (world_of (idle_agent 0) (Json (record "run tests" "Completed")) [])
           (record "run tests" "Completed") "run tests" (PStr "Completed")
           0 "ok" "" (Json (record "run tests" "Completed")));
    [reflexivity | reflexivity | reflexivity | discriminate].
Defined.

(** The same with status ["failed"]: three passes, three subprocesses, and
    the loop is still running. *)
Example failed_status_keeps_looping :
  let w := world_of (idle_agent 0) (Json (record "run tests" "failed")) [] in
  fst (run_loop 3 0 w) = Ok None
  /\ spawned (trace (snd (run_loop 3 0 w)))
     = [command "run tests"; command "run tests"; command "run tests"].
Proof. vm_compute. split; reflexivity. Qed.

Lemma completion_check_uses_earlier_read_witness :
  exists w',
    loop_body (0 + 1)
      (world_of finishing_agent (Json (record "run tests" "in_progress")) [])
    = (Ok true, w')
    /\ fst (check_state w') = Ok (PDict (<["status" := PStr "completed"]> ∅))
    /\ run_loop 1 0
         (world_of finishing_agent (Json (record "run tests" "in_progress")) [])
       = run_loop 0 (0 + 1) w'
    /\ (subscript (PDict (<["status" := PStr "completed"]> ∅)) "next_step_prompt"
        = Raised KeyError ->
        fst (run_loop 2 0
               (world_of finishing_agent
                  (Json (record "run tests" "in_progress")) []))
        = Raised KeyError).
Proof.
  apply (completion_check_uses_earlier_read
           (world_of finishing_agent (Json (record "run tests" "in_progress")) [])
           (record "run tests" "in_progress") "run tests" (PStr "in_progress")
           0 "done" "" (Json (PDict (<["status" := PStr "completed"]> ∅))));
    reflexivity.
Defined.

(** The scenario of the specification: the state file holds
    [{"next_step_prompt": "run tests", "status": "in_progress"}] and the
    agent rewrites it to [{"status": "completed"}].  The script runs the
    agent with ["run tests"], starts a second pass and raises KeyError. *)
Example scenario_completed_without_prompt :
  let w := world_of finishing_agent (Json (record "run tests" "in_progress"))
             ["Fix bug #42"; "False"] in
  forall fuel,
    fst (main (S (S fuel)) w) = Raised KeyError
    /\ spawned (trace (snd (main (S (S fuel)) w))) = [command "run tests"].
Proof.
  intros w fuel. unfold w.
  rewrite (main_declined _ _ "Fix bug #42" "False" []) by reflexivity.
  rewrite run_loop_step.
  erewrite loop_body_record; [|reflexivity|reflexivity|reflexivity].
  cbn [negb eq_str String.eqb Ascii.eqb Bool.eqb].
  rewrite run_loop_step.
  erewrite loop_body_no_prompt; [|reflexivity|reflexivity].
  split; reflexivity.
Qed.

(** When the completed record keeps a prompt, the script runs the agent a
    second time, with that prompt, and only then leaves the loop. *)
Example scenario_completed_with_prompt :
  let w := world_of closing_agent (Json (record "run tests" "in_progress"))
             ["Fix bug #42"; "False"] in
  fst (main 2 w) = Ok (Some tt)
  /\ spawned (trace (snd (main 2 w)))
     = [command "run tests"; command "nothing left"].
Proof. vm_compute. split; reflexivity. Qed.

(** ** The state file is absent: claim C1 *)

(** C1 (the script fails it): when the reader returns [None] in the first
    pass (no state file, or content that is not JSON) and no plan was asked
    for, the script does not reach a recovery path: the lookup
    [state["next_step_prompt"]] on [None] raises TypeError, which nothing
    catches, before any subprocess is run. *)
Theorem absent_state_raises_type_error
    (fuel : nat) (w : world) (task reply : string) (rest : list string) :
  stdin w = task :: reply :: rest ->
  need_plan reply = false ->
  file w = NoFile \/ file w = NotJson ->
  exists w',
    main (S fuel) w = (Raised TypeError, w')
    /\ fst (check_state (after_inputs w task reply rest)) = Ok PNone
    /\ spawned (trace w') = spawned (trace w).
Proof.
  intros Hin Hn Hf.
  assert (Hr : reader_result (file (after_inputs w task reply rest)) = Ok PNone).
  { cbn [after_inputs file]. destruct Hf as [-> | ->]; reflexivity. }
  eexists. split; [|split].
  - rewrite (main_declined _ _ _ _ _ Hin Hn), run_loop_step.
    rewrite (loop_body_no_prompt _ _ PNone TypeError Hr); reflexivity.
  - rewrite check_state_eq. exact Hr.
  - cbn [emit trace after_inputs]. rewrite !spawned_app. cbn.
    rewrite !app_nil_r. reflexivity.
Qed.

Lemma absent_state_raises_type_error_witness :
  exists w',
    main 1 (world_of (idle_agent 0) NoFile ["Fix bug #42"; "False"])
    = (Raised TypeError, w')
    /\ fst (check_state
              (after_inputs
                 (world_of (idle_agent 0) NoFile ["Fix bug #42"; "False"])
                 "Fix bug #42" "False" []))
       = Ok PNone
    /\ spawned (trace w') = spawned [].
Proof.
  apply (absent_state_raises_type_error 0
           (world_of (idle_agent 0) NoFile ["Fix bug #42"; "False"])
           "Fix bug #42" "False" []);
    [reflexivity | reflexivity | left; reflexivity].
Defined.

(** ** Leaving the loop: claim C4 *)






(** ** Planning: claim C7 *)

Lemma calls_after_inputs (w : world) (task reply : string) rest :
  calls (after_inputs w task reply rest) = calls w.
Proof.
  unfold calls, after_inputs. cbn [trace]. rewrite spawned_app. cbn.
  rewrite app_nil_r. reflexivity.
Qed.



(** ** The reply to "Do you need a plan?": claim C9 *)















(** ** The pass, case by case *)

Lemma subprocess_run_eq (cmd : list string) (w : world) :
  subprocess_run cmd w =
  let c := fst (agent w (calls w) cmd (file w)) in
  let f' := snd (agent w (calls w) cmd (file w)) in
  (match c with
   | Fails e => Raised e
   | Exits rc out err =>
       Ok {| args := cmd; returncode := rc; stdout := out; stderr := err |}
   end, after_spawn cmd c f' w).
Proof.
  unfold subprocess_run, after_spawn.
  destruct (agent w (calls w) cmd (file w)) as [[e|rc out err] f']; reflexivity.
Qed.

(** [run_claude_code] on any value: the line is printed first; a value that
    is not a string raises TypeError without a subprocess; a string gives
    one subprocess, whose failure to start is raised as it is. *)
Lemma run_claude_code_eq (prompt : pyval) (w : world) :
  let w1 := emit (EvPrint (FStr "Running Claude Code with prompt: " prompt "")) w in
  run_claude_code prompt w =
  match prompt with
  | PStr p =>
      let c := fst (agent w (calls w) (command p) (file w)) in
      let f' := snd (agent w (calls w) (command p) (file w)) in
      (match c with
       | Fails e => Raised e
       | Exits _ out _ => Ok out
       end, after_spawn (command p) c f' w1)
  | _ => (Raised TypeError, w1)
  end.
Proof.
  unfold run_claude_code. rewrite bind_unfold. unfold print, log.
  destruct prompt as [| | | |p| |]; try reflexivity.
  rewrite bind_unfold, subprocess_run_eq.
  rewrite calls_emit by reflexivity.
  change (file (emit _ w)) with (file w).
  change (agent (emit _ w)) with (agent w).
  cbv zeta.
  destruct (fst (agent w (calls w) (command p) (file w))); reflexivity.
Qed.

(** The whole pass as one case analysis, in the order of the source: the
    read, the "Starting" line, the lookup of the prompt, the invocation, the
    print of its output, the lookup of the status, the comparison. *)
Lemma loop_body_cases (iteration : Z) (w : world) :
  let w0 := emit (EvRead (load (file w))) w in
  let w1 :=
    emit (EvPrint (FStr "Starting command... (Iteration " (PInt iteration) ")"))
      w0 in
  loop_body iteration w =
  match reader_result (file w) with
  | Raised e => (Raised e, w0)
  | Ok state =>
      match subscript state "next_step_prompt" with
      | Raised e => (Raised e, w1)
      | Ok prompt =>
          match run_claude_code prompt w1 with
          | (Raised e, w2) => (Raised e, w2)
          | (Ok output, w2) =>
              let w3 := emit (EvPrint (Str output)) w2 in
              match subscript state "status" with
              | Raised e => (Raised e, w3)
              | Ok status =>
                  if eq_str status "completed"
                  then (Ok false,
                        emit (EvPrint
                                (Str "Status file indicates completion. Stopping."))
                          w3)
                  else (Ok true, w3)
              end
          end
      end
  end.
Proof.
  cbv zeta. unfold loop_body. rewrite bind_unfold, check_state_eq.
  destruct (reader_result (file w)) as [state|e]; [|reflexivity].
  rewrite bind_unfold. unfold print at 1, log at 1.
  rewrite bind_unfold. unfold lift at 1.
  destruct (subscript state "next_step_prompt") as [prompt|e]; [|reflexivity].
  rewrite bind_unfold.
  destruct (run_claude_code prompt _) as [[output|e] w2]; [|reflexivity].
  rewrite bind_unfold. unfold print at 1, log at 1.
  rewrite bind_unfold. unfold lift.
  destruct (subscript state "status") as [status|e]; [|reflexivity].
  destruct (eq_str status "completed"); [|reflexivity].
  rewrite bind_unfold. reflexivity.
Qed.

(** ** Runs that end with an exception *)

Lemma reads_app (tr tr' : list event) :
  reads (tr ++ tr') = reads tr + reads tr'.
Proof.
  induction tr as [|e tr IH]; [reflexivity|].
  destruct e; simpl; rewrite IH; reflexivity.
Qed.

Lemma printed_app (tr tr' : list event) :
  printed (tr ++ tr') = printed tr ++ printed tr'.
Proof.
  induction tr as [|e tr IH]; [reflexivity|].
  destruct e; simpl; rewrite IH; reflexivity.
Qed.

(** X1: the script needs two lines of input.  With fewer, the second (or the
    first) [input] raises EOFError, and the script ends there: the state file
    has not been read and no subprocess has been run. *)
Theorem main_needs_two_answers (fuel : nat) (w : world) :
  length (stdin w) < 2 ->
  exists w',
    main fuel w = (Raised EOFError, w')
    /\ spawned (trace w') = spawned (trace w)
    /\ reads (trace w') = reads (trace w)
    /\ file w' = file w.
Proof.
  intros Hlen. unfold main.
  rewrite bind_unfold. unfold log at 1.
  rewrite bind_unfold. unfold log at 1.
  rewrite bind_unfold. unfold read_inputs.
  rewrite bind_unfold. unfold input at 1. cbn [emit stdin].
  destruct (stdin w) as [|task [|reply rest]] eqn:Hin;
    [| |simpl in Hlen; lia].
  - eexists. split; [reflexivity|]. cbn [trace emit file].
    rewrite !spawned_app, !reads_app. cbn.
    rewrite !app_nil_r. repeat split; lia.
  - rewrite bind_unfold. unfold input. cbn [stdin].
    eexists. split; [reflexivity|]. cbn [trace emit file].
    rewrite !spawned_app, !reads_app. cbn.
    rewrite !app_nil_r. repeat split; lia.
Qed.

Lemma main_needs_two_answers_witness :
  exists w',
    main 5 (world_of (idle_agent 0) (Json (record "run tests" "pending"))
              ["Fix bug #42"])
    = (Raised EOFError, w')
    /\ spawned (trace w') = spawned []
    /\ reads (trace w') = reads []
    /\ file w' = Json (record "run tests" "pending").
Proof.
  apply (main_needs_two_answers 5
           (world_of (idle_agent 0) (Json (record "run tests" "pending"))
              ["Fix bug #42"])).
  simpl. lia.
Defined.

(** A pass in which the lookup of the prompt raises ends the loop with that
    exception; the state file is as it was and no subprocess has been run. *)
Lemma run_loop_no_prompt (fuel : nat) (iteration : Z) (w : world)
    (state : pyval) (e : exn_class) :
  reader_result (file w) = Ok state ->
  subscript state "next_step_prompt" = Raised e ->
  exists w',
    run_loop (S fuel) iteration w = (Raised e, w')
    /\ spawned (trace w') = spawned (trace w)
    /\ file w' = file w.
Proof.
  intros Hr Hp. eexists. split.
  { rewrite run_loop_step, (loop_body_no_prompt _ _ _ _ Hr Hp). reflexivity. }
  cbn [emit trace file]. rewrite !spawned_app. cbn.
  rewrite !app_nil_r. auto.
Qed.

(** X2: a state file that holds JSON other than an object ([null], a list, a
    string, a number, [true]) ends the loop with TypeError in the pass that
    reads it, before any subprocess is run. *)
Theorem non_object_state_raises_type_error
    (fuel : nat) (iteration : Z) (w : world) (v : pyval) :
  file w = Json v ->
  is_dict v = false ->
  exists w',
    run_loop (S fuel) iteration w = (Raised TypeError, w')
    /\ spawned (trace w') = spawned (trace w)
    /\ file w' = file w.
Proof.
  intros Hf Hd. apply (run_loop_no_prompt _ _ _ v).
  - unfold reader_result. rewrite Hf. reflexivity.
  - destruct v; try reflexivity. discriminate.
Qed.

Lemma non_object_state_raises_type_error_witness :
  exists w',
    run_loop 1 0
      (world_of (idle_agent 0) (Json (PList [PStr "run tests"])) [])
    = (Raised TypeError, w')
    /\ spawned (trace w') = spawned []
    /\ file w' = Json (PList [PStr "run tests"]).
Proof.
  apply (non_object_state_raises_type_error 0 0
           (world_of (idle_agent 0) (Json (PList [PStr "run tests"])) [])
           (PList [PStr "run tests"]));
    reflexivity.
Defined.

(** X3: a state record without the key [next_step_prompt] ends the loop with
    KeyError before any subprocess is run, whatever its other keys say: a
    record that only says [status: completed] does not stop the loop
    normally. *)
Theorem missing_prompt_raises_key_error
    (fuel : nat) (iteration : Z) (w : world) (d : gmap string pyval) :
  file w = Json (PDict d) ->
  d !! "next_step_prompt" = None ->
  exists w',
    run_loop (S fuel) iteration w = (Raised KeyError, w')
    /\ spawned (trace w') = spawned (trace w)
    /\ file w' = file w.
Proof.
  intros Hf Hd. apply (run_loop_no_prompt _ _ _ (PDict d)).
  - unfold reader_result. rewrite Hf. reflexivity.
  - unfold subscript. rewrite Hd. reflexivity.
Qed.

Lemma missing_prompt_raises_key_error_witness :
  exists w',
    run_loop 1 0
      (world_of (idle_agent 0)
         (Json (PDict (<["status" := PStr "completed"]> ∅))) [])
    = (Raised KeyError, w')
    /\ spawned (trace w') = spawned []
    /\ file w' = Json (PDict (<["status" := PStr "completed"]> ∅)).
Proof.
  apply (missing_prompt_raises_key_error 0 0
           (world_of (idle_agent 0)
              (Json (PDict (<["status" := PStr "completed"]> ∅))) [])
           (<["status" := PStr "completed"]> ∅));
    reflexivity.
Defined.

(** X4: a record whose [next_step_prompt] is not a string ([null], a number,
    a list, ...) gets as far as the line "Running Claude Code with prompt:",
    which shows the value, and then ends the loop with TypeError: no
    subprocess is run. *)
Theorem non_string_prompt_raises_type_error
    (fuel : nat) (iteration : Z) (w : world) (d : gmap string pyval)
    (x : pyval) :
  file w = Json (PDict d) ->
  d !! "next_step_prompt" = Some x ->
  is_str x = false ->
  exists w',
    run_loop (S fuel) iteration w = (Raised TypeError, w')
    /\ spawned (trace w') = spawned (trace w)
    /\ printed (trace w')
       = printed (trace w)
         ++ [FStr "Starting command... (Iteration " (PInt (iteration + 1)) ")";
             FStr "Running Claude Code with prompt: " x ""]
    /\ file w' = file w.
Proof.
  intros Hf Hd Hx. eexists. split.
  { rewrite run_loop_step, loop_body_cases. cbv zeta.
    unfold reader_result. rewrite Hf. cbn [load]. unfold subscript at 1.
    rewrite Hd, run_claude_code_eq. cbv zeta.
    destruct x; try discriminate Hx; reflexivity. }
  cbn [emit trace file].
  rewrite !spawned_app, !printed_app. cbn. rewrite !app_nil_r, <- !app_assoc. auto.
Qed.

Lemma non_string_prompt_raises_type_error_witness :
  exists w',
    run_loop 1 0
      (world_of (idle_agent 0)
         (Json (PDict (<["next_step_prompt" := PNone]>
                         (<["status" := PStr "pending"]> ∅)))) [])
    = (Raised TypeError, w')
    /\ spawned (trace w') = spawned []
    /\ printed (trace w')
       = printed []
         ++ [FStr "Starting command... (Iteration " (PInt (0 + 1)) ")";
             FStr "Running Claude Code with prompt: " PNone ""]
    /\ file w'
       = Json (PDict (<["next_step_prompt" := PNone]>
                        (<["status" := PStr "pending"]> ∅))).
Proof.
  apply (non_string_prompt_raises_type_error 0 0
           (world_of (idle_agent 0)
              (Json (PDict (<["next_step_prompt" := PNone]>
                              (<["status" := PStr "pending"]> ∅)))) [])
           (<["next_step_prompt" := PNone]> (<["status" := PStr "pending"]> ∅))
           PNone);
    reflexivity.
Defined.

(** X5: a record with a string [next_step_prompt] and no [status] does not
    fail at once: the agent is run with the prompt, its output is printed,
    and only then the lookup of the status ends the loop with KeyError.  The
    state file is what the agent left. *)
Theorem missing_status_raises_after_invocation
    (fuel : nat) (iteration : Z) (w : world) (d : gmap string pyval)
    (p : string) (rc : Z) (out err : string) (f' : state_file) :
  file w = Json (PDict d) ->
  d !! "next_step_prompt" = Some (PStr p) ->
  d !! "status" = None ->
  agent w (calls w) (command p) (file w) = (Exits rc out err, f') ->
  exists w',
    run_loop (S fuel) iteration w = (Raised KeyError, w')
    /\ trace w' = trace w ++ pass_events (iteration + 1) (PDict d) p rc out err
    /\ file w' = f'.
Proof.
  intros Hf Hp Hs Ha. eexists. split.
  { rewrite run_loop_step, loop_body_cases. cbv zeta.
    unfold reader_result. rewrite Hf. cbn [load]. unfold subscript.
    rewrite Hp, Hs, run_claude_code_eq. cbv zeta.
    rewrite !calls_emit by reflexivity.
    change (file (emit _ (emit _ w))) with (file w).
    change (agent (emit _ (emit _ w))) with (agent w).
    rewrite Ha. reflexivity. }
  cbn [emit after_spawn trace file]. rewrite <- !app_assoc. auto.
Qed.

Lemma missing_status_raises_after_invocation_witness :
  exists w',
    run_loop 1 0
      (world_of closing_agent
         (Json (PDict (<["next_step_prompt" := PStr "run tests"]> ∅))) [])
    = (Raised KeyError, w')
    /\ trace w'
       = [] ++ pass_events (0 + 1)
                 (PDict (<["next_step_prompt" := PStr "run tests"]> ∅))
                 "run tests" 0 "done" ""
    /\ file w' = Json (record "nothing left" "completed").
Proof.
  apply (missing_status_raises_after_invocation 0 0
           (world_of closing_agent
              (Json (PDict (<["next_step_prompt" := PStr "run tests"]> ∅))) [])
           (<["next_step_prompt" := PStr "run tests"]> ∅)
           "run tests" 0 "done" "" (Json (record "nothing left" "completed")));
    reflexivity.
Defined.

(** X6: [run_claude_code] has no handler around [subprocess.run]: when the
    subprocess cannot be run (the call raises [e]), the pass raises [e] and
    the loop ends, whatever status the record has; the attempt is the last
    event, nothing is printed after it. *)
Theorem spawn_failure_ends_loop
    (fuel : nat) (iteration : Z) (w : world) (d : gmap string pyval)
    (p : string) (e : exn_class) (f' : state_file) :
  file w = Json (PDict d) ->
  d !! "next_step_prompt" = Some (PStr p) ->
  agent w (calls w) (command p) (file w) = (Fails e, f') ->
  exists w',
    run_loop (S fuel) iteration w = (Raised e, w')
    /\ trace w'
       = trace w
         ++ [EvRead (Ok (PDict d));
             EvPrint (FStr "Starting command... (Iteration "
                        (PInt (iteration + 1)) ")");
             EvPrint (FStr "Running Claude Code with prompt: " (PStr p) "");
             EvSpawn (command p) (Fails e)].
Proof.
  intros Hf Hp Ha. eexists. split.
  { rewrite run_loop_step, loop_body_cases. cbv zeta.
    unfold reader_result. rewrite Hf. cbn [load]. unfold subscript at 1.
    rewrite Hp, run_claude_code_eq. cbv zeta.
    rewrite !calls_emit by reflexivity.
    change (file (emit _ (emit _ w))) with (file w).
    change (agent (emit _ (emit _ w))) with (agent w).
    rewrite Ha. reflexivity. }
  cbn [emit after_spawn trace]. rewrite <- !app_assoc. reflexivity.
Qed.

Lemma spawn_failure_ends_loop_witness :
  exists w',
    run_loop 3 0
      (world_of (broken_agent FileNotFoundError)
         (Json (record "run tests" "completed")) [])
    = (Raised FileNotFoundError, w')
    /\ trace w'
       = []
         ++ [EvRead (Ok (record "run tests" "completed"));
             EvPrint (FStr "Starting command... (Iteration " (PInt (0 + 1)) ")");
             EvPrint (FStr "Running Claude Code with prompt: "
                        (PStr "run tests") "");
             EvSpawn (command "run tests") (Fails FileNotFoundError)].
Proof.
  apply (spawn_failure_ends_loop 2 0
           (world_of (broken_agent FileNotFoundError)
              (Json (record "run tests" "completed")) [])
           (<["next_step_prompt" := PStr "run tests"]>
              (<["status" := PStr "completed"]> ∅))
           "run tests" FileNotFoundError
           (Json (record "run tests" "completed")));
    reflexivity.
Defined.

(** X7: when a plan is asked for and the planning subprocess cannot be run,
    the script ends with that exception before the loop: the state file is
    never read. *)
Theorem planning_failure_ends_script
    (fuel : nat) (w : world) (task reply : string) (rest : list string)
    (e : exn_class) (f' : state_file) :
  stdin w = task :: reply :: rest ->
  need_plan reply = true ->
  agent w (calls w) (command ("/make_plan " +:+ task)) (file w) = (Fails e, f') ->
  exists w',
    main fuel w = (Raised e, w')
    /\ reads (trace w') = reads (trace w)
    /\ spawned (trace w')
       = spawned (trace w) ++ [command ("/make_plan " +:+ task)].
Proof.
  intros Hin Hn Ha. eexists. split.
  { rewrite (main_unfold _ _ _ _ _ Hin), Hn. unfold planning.
    rewrite bind_unfold. unfold print at 1, log at 1.
    rewrite bind_unfold, run_claude_code_eq. cbv zeta.
    rewrite calls_emit by reflexivity. rewrite calls_after_inputs.
    change (file (emit _ (after_inputs w task reply rest))) with (file w).
    change (agent (emit _ (after_inputs w task reply rest))) with (agent w).
    rewrite Ha. reflexivity. }
  cbn [emit after_spawn after_inputs trace].
  rewrite !reads_app, !spawned_app. cbn. rewrite !app_nil_r.
  split; [lia|reflexivity].
Qed.

Lemma planning_failure_ends_script_witness :
  exists w',
    main 4 (world_of (broken_agent PermissionError)
              (Json (record "run tests" "pending")) ["Fix bug #42"; "true"])
    = (Raised PermissionError, w')
    /\ reads (trace w') = reads []
    /\ spawned (trace w') = spawned [] ++ [command "/make_plan Fix bug #42"].
Proof.
  apply (planning_failure_ends_script 4
           (world_of (broken_agent PermissionError)
              (Json (record "run tests" "pending")) ["Fix bug #42"; "true"])
           "Fix bug #42" "true" [] PermissionError
           (Json (record "run tests" "pending")));
    reflexivity.
Defined.

(** X8: a state file that exists but cannot be opened or decoded as text
    ([open] or the read raises an exception other than FileNotFoundError and
    JSONDecodeError, such as PermissionError, IsADirectoryError or
    UnicodeDecodeError) is not treated as absent: [check_state] lets the
    exception through and the loop ends with it, before any subprocess. *)
Theorem unreadable_state_ends_loop
    (fuel : nat) (iteration : Z) (w : world) (e : exn_class) :
  file w = Unreadable e ->
  e <> FileNotFoundError ->
  e <> JSONDecodeError ->
  fst (check_state w) = Raised e
  /\ exists w',
       run_loop (S fuel) iteration w = (Raised e, w')
       /\ trace w' = trace w ++ [EvRead (Raised e)].
Proof.
  intros Hf H1 H2.
  assert (Hr : reader_result (file w) = Raised e).
  { unfold reader_result. rewrite Hf. cbn [load].
    destruct e; try reflexivity; congruence. }
  split; [rewrite check_state_eq; exact Hr|].
  eexists. split.
  { rewrite run_loop_step, loop_body_cases. cbv zeta. rewrite Hr.
    reflexivity. }
  cbn [emit trace]. rewrite Hf. reflexivity.
Qed.

Lemma unreadable_state_ends_loop_witness :
  fst (check_state (world_of (idle_agent 0) (Unreadable PermissionError) []))
  = Raised PermissionError
  /\ exists w',
       run_loop 1 0 (world_of (idle_agent 0) (Unreadable PermissionError) [])
       = (Raised PermissionError, w')
       /\ trace w' = [] ++ [EvRead (Raised PermissionError)].
Proof.
  apply (unreadable_state_ends_loop 0 0
           (world_of (idle_agent 0) (Unreadable PermissionError) [])
           PermissionError);
    [reflexivity | discriminate | discriminate].
Defined.

(** ** What every pass and every run keep *)

Lemma iterations_app (tr tr' : list event) :
  iterations (tr ++ tr') = iterations tr ++ iterations tr'.
Proof.
  induction tr as [|e tr IH]; [reflexivity|].
  cbn [app iterations]. rewrite IH. destruct (announced e); reflexivity.
Qed.

Lemma running_line_not_announced (prompt : pyval) :
  announced (EvPrint (FStr "Running Claude Code with prompt: " prompt "")) = None.
Proof. destruct prompt; reflexivity. Qed.

Ltac frame_done :=
  repeat split;
  first [ apply List.Forall_nil | lia | (intros; discriminate) | reflexivity
        | (left; reflexivity) | (right; reflexivity) ].

Ltac trace_facts :=
  cbn [emit after_spawn trace file agent stdin];
  rewrite <- ?app_assoc; cbn [app].

(** The frame of [run_claude_code]: the "Running" line, then at most one
    subprocess, which is a [command]; the agent function and the pending
    input are kept; an agent that keeps the state file leaves it as it is. *)
Lemma run_claude_code_frame (prompt : pyval) (w w' : world) (r : result string) :
  run_claude_code prompt w = (r, w') ->
  agent w' = agent w /\ stdin w' = stdin w
  /\ (keeps_file (agent w) -> file w' = file w)
  /\ exists tl,
       trace w'
       = trace w
         ++ EvPrint (FStr "Running Claude Code with prompt: " prompt "") :: tl
       /\ reads tl = 0 /\ iterations tl = []
       /\ Forall is_command (spawned tl)
       /\ length (spawned tl) <= 1
       /\ (forall out, r = Ok out -> length (spawned tl) = 1).
Proof.
  rewrite run_claude_code_eq. cbv zeta.
  destruct prompt as [| | | |p| |];
    try (intros [= <- <-];
         split; [reflexivity|]; split; [reflexivity|];
         split; [intros _; reflexivity|];
         exists []; cbn; frame_done).
  intros [= <- <-]. split; [reflexivity|]. split; [reflexivity|]. split.
  { intros Hk. cbn [after_spawn file]. apply Hk. }
  eexists. split; [trace_facts; reflexivity|].
  cbn. repeat split; try lia.
  repeat constructor. exists p. reflexivity.
Qed.

(** The frame of one pass. *)
Lemma loop_body_frame (iteration : Z) (w w' : world) (r : result bool) :
  loop_body iteration w = (r, w') ->
  agent w' = agent w /\ stdin w' = stdin w
  /\ (keeps_file (agent w) -> file w' = file w)
  /\ exists tl,
       trace w' = trace w ++ tl
       /\ reads tl = 1
       /\ Forall is_command (spawned tl)
       /\ length (spawned tl) <= 1
       /\ (iterations tl = [] \/ iterations tl = [iteration])
       /\ (forall b, r = Ok b ->
           length (spawned tl) = 1 /\ iterations tl = [iteration]).
Proof.
  rewrite loop_body_cases. cbv zeta.
  destruct (reader_result (file w)) as [state|e].
  2:{ intros [= <- <-].
      split; [reflexivity|]. split; [reflexivity|].
      split; [intros _; reflexivity|].
      exists [EvRead (load (file w))]. cbn.
      frame_done. }
  destruct (subscript state "next_step_prompt") as [prompt|e].
  2:{ intros [= <- <-].
      split; [reflexivity|]. split; [reflexivity|].
      split; [intros _; reflexivity|].
      eexists. split; [trace_facts; reflexivity|]. cbn.
      frame_done. }
  destruct (run_claude_code prompt _) as [ro w2] eqn:Hrun.
  destruct (run_claude_code_frame _ _ _ _ Hrun)
    as (Ha & Hi & Hk & tl & Htl & Hr & Hit & Hc & Hlen & Hone).
  cbn [emit agent stdin file trace] in Ha, Hi, Hk, Htl.
  assert (Hfin : forall (r0 : result bool) (post : list event) w3,
             agent w3 = agent w2 -> stdin w3 = stdin w2 -> file w3 = file w2 ->
             trace w3 = trace w2 ++ post ->
             reads post = 0 -> spawned post = [] -> iterations post = [] ->
             (forall b, r0 = Ok b -> exists out, ro = Ok out) ->
             (r0, w3) = (r, w') ->
             agent w' = agent w /\ stdin w' = stdin w
             /\ (keeps_file (agent w) -> file w' = file w)
             /\ exists tl0,
                  trace w' = trace w ++ tl0
                  /\ reads tl0 = 1
                  /\ Forall is_command (spawned tl0)
                  /\ length (spawned tl0) <= 1
                  /\ (iterations tl0 = [] \/ iterations tl0 = [iteration])
                  /\ (forall b, r = Ok b ->
                      length (spawned tl0) = 1 /\ iterations tl0 = [iteration])).
  { intros r0 post w3 Ha3 Hi3 Hf3 Ht3 Hr3 Hs3 Hit3 Hok [= <- <-].
    split; [congruence|]. split; [congruence|].
    split; [intros Hkf; rewrite Hf3; auto|].
    exists ([EvRead (load (file w));
             EvPrint (FStr "Starting command... (Iteration "
                        (PInt iteration) ")");
             EvPrint (FStr "Running Claude Code with prompt: " prompt "")]
            ++ tl ++ post).
    split.
    { rewrite Ht3, Htl, <- !app_assoc. reflexivity. }
    rewrite !reads_app, !spawned_app, !iterations_app, Hr, Hr3, Hs3, Hit, Hit3.
    cbn [iterations]. rewrite running_line_not_announced.
    cbn. rewrite !app_nil_r.
    split; [reflexivity|]. split; [exact Hc|]. split; [exact Hlen|].
    split; [right; reflexivity|].
    intros b Hb. split; [|reflexivity].
    destruct (Hok _ Hb) as (out & ->). eapply Hone. reflexivity. }
  destruct ro as [output|e].
  2:{ apply (Hfin (Raised e) [] w2); auto; [rewrite app_nil_r; reflexivity|].
      discriminate. }
  destruct (subscript state "status") as [status|e].
  2:{ apply (Hfin (Raised e) [EvPrint (Str output)]); auto. discriminate. }
  destruct (eq_str status "completed").
  - apply (Hfin (Ok false)
             [EvPrint (Str output);
              EvPrint (Str "Status file indicates completion. Stopping.")]);
      auto; [trace_facts; reflexivity | eauto].
  - apply (Hfin (Ok true) [EvPrint (Str output)]); auto. eauto.
Qed.

(** The frame of a run of the loop: the agent function and the pending input
    are kept, every subprocess is a [command], and an agent that keeps the
    state file leaves it as it was. *)
Lemma run_loop_frame (fuel : nat) :
  forall iteration w r w',
    run_loop fuel iteration w = (r, w') ->
    agent w' = agent w /\ stdin w' = stdin w
    /\ (keeps_file (agent w) -> file w' = file w)
    /\ exists tl, trace w' = trace w ++ tl /\ Forall is_command (spawned tl).
Proof.
  induction fuel as [|fuel IH]; intros iteration w r w'.
  - intros [= <- <-]. repeat split; auto.
    exists []. rewrite app_nil_r. split; [reflexivity|constructor].
  - rewrite run_loop_step.
    destruct (loop_body (iteration + 1) w) as [rb w1] eqn:Hb.
    destruct (loop_body_frame _ _ _ _ Hb)
      as (Ha & Hi & Hk & tl & Htl & _ & Hc & _).
    destruct rb as [[|]|e].
    + intros H.
      destruct (IH _ _ _ _ H) as (Ha' & Hi' & Hk' & tl' & Htl' & Hc').
      split; [congruence|]. split; [congruence|]. split.
      { intros Hkf. rewrite Hk', Hk; auto. rewrite Ha. exact Hkf. }
      exists (tl ++ tl'). split.
      * rewrite Htl', Htl, <- app_assoc. reflexivity.
      * rewrite spawned_app. apply Forall_app. auto.
    + intros [= <- <-]. eauto 10.
    + intros [= <- <-]. eauto 10.
Qed.

Lemma count_from_length (z : Z) (n : nat) : length (count_from z n) = n.
Proof.
  revert z. induction n as [|n IH]; intros z; [reflexivity|].
  cbn. rewrite IH. reflexivity.
Qed.

(** Reads, subprocesses and announced iterations of a run of the loop. *)
Lemma run_loop_counts (fuel : nat) :
  forall iteration w r w',
    run_loop fuel iteration w = (r, w') ->
    exists tl,
      trace w' = trace w ++ tl
      /\ length (spawned tl) <= reads tl
      /\ reads tl <= length (spawned tl) + 1
      /\ reads tl <= fuel
      /\ (exists n, n <= reads tl
                    /\ iterations tl = count_from (iteration + 1) n)
      /\ (r = Ok (Some tt) ->
          1 <= reads tl /\ length (spawned tl) = reads tl
          /\ iterations tl = count_from (iteration + 1) (reads tl))
      /\ (r = Ok None ->
          reads tl = fuel /\ length (spawned tl) = fuel
          /\ iterations tl = count_from (iteration + 1) fuel).
Proof.
  induction fuel as [|fuel IH]; intros iteration w r w'.
  - intros [= <- <-]. exists []. rewrite app_nil_r. cbn.
    repeat split; try lia; try discriminate.
    exists 0. split; [lia|reflexivity].
  - rewrite run_loop_step.
    destruct (loop_body (iteration + 1) w) as [rb w1] eqn:Hb.
    destruct (loop_body_frame _ _ _ _ Hb)
      as (_ & _ & _ & tl & Htl & Hr & _ & Hlen & Hit & Hok).
    destruct rb as [[|]|e].
    + destruct (Hok true eq_refl) as (Hone & Hit1).
      intros H.
      destruct (IH _ _ _ _ H)
        as (tl' & Htl' & H1 & H2 & H3 & (n & Hn & Hitn) & Hex & Hrun).
      exists (tl ++ tl'). split.
      { rewrite Htl', Htl, <- app_assoc. reflexivity. }
      rewrite reads_app, spawned_app, length_app, iterations_app, Hit1, Hr, Hone.
      split; [lia|]. split; [lia|]. split; [lia|]. split.
      { exists (S n). split; [lia|]. rewrite Hitn. reflexivity. }
      split.
      * intros Hr0. destruct (Hex Hr0) as (Hx1 & Hx2 & Hx3).
        split; [lia|]. split; [lia|]. rewrite Hx3. reflexivity.
      * intros Hr0. destruct (Hrun Hr0) as (Hx1 & Hx2 & Hx3).
        split; [lia|]. split; [lia|]. rewrite Hx3. reflexivity.
    + destruct (Hok false eq_refl) as (Hone & Hit1).
      intros [= <- <-]. exists tl. split; [exact Htl|].
      rewrite Hr, Hone, Hit1.
      repeat split; try lia; try discriminate.
      exists 1. split; [lia|reflexivity].
    + intros [= <- <-]. exists tl. split; [exact Htl|].
      rewrite Hr.
      repeat split; try lia; try discriminate.
      destruct Hit as [-> | ->]; [exists 0|exists 1]; split; (lia || reflexivity).
Qed.

(** The frame of the planning step: at most one subprocess, a [command]; no
    read of the state file and no iteration announced. *)
Lemma planning_frame (task : string) (b : bool) (w w' : world) (r : result unit) :
  planning task b w = (r, w') ->
  agent w' = agent w /\ stdin w' = stdin w
  /\ (keeps_file (agent w) -> file w' = file w)
  /\ exists tl,
       trace w' = trace w ++ tl
       /\ Forall is_command (spawned tl)
       /\ reads tl = 0 /\ iterations tl = [].
Proof.
  unfold planning. destruct b.
  2:{ intros [= <- <-]. split; [reflexivity|]. split; [reflexivity|].
      split; [auto|]. exists []. rewrite app_nil_r. frame_done. }
  rewrite bind_unfold. unfold print at 1, log at 1. rewrite bind_unfold.
  destruct (run_claude_code _ _) as [ro w2] eqn:Hrun.
  destruct (run_claude_code_frame _ _ _ _ Hrun)
    as (Ha & Hi & Hk & tl & Htl & Hr & Hit & Hc & _).
  cbn [emit agent stdin file trace] in Ha, Hi, Hk, Htl.
  destruct ro as [out|e]; unfold print, log; intros [= <- <-].
  - split; [exact Ha|]. split; [exact Hi|]. split; [exact Hk|].
    exists ([EvPrint (Str "Generating plan...");
             EvPrint (FStr "Running Claude Code with prompt: "
                        (PStr ("/make_plan " +:+ task)) "")]
            ++ tl ++ [EvPrint (Str out)]).
    split; [cbn [emit trace]; rewrite Htl, <- !app_assoc; reflexivity|].
    rewrite !spawned_app, !reads_app, !iterations_app, Hr, Hit.
    cbn. rewrite app_nil_r. auto.
  - split; [exact Ha|]. split; [exact Hi|]. split; [exact Hk|].
    exists ([EvPrint (Str "Generating plan...");
             EvPrint (FStr "Running Claude Code with prompt: "
                        (PStr ("/make_plan " +:+ task)) "")]
            ++ tl).
    split; [rewrite Htl, <- !app_assoc; reflexivity|].
    rewrite !spawned_app, !reads_app, !iterations_app, Hr, Hit.
    cbn. auto.
Qed.

(** With fewer than two lines of input the script ends in [read_inputs]. *)
Lemma main_short_input (fuel : nat) (w : world) :
  length (stdin w) < 2 ->
  exists tl,
    main fuel w
    = (Raised EOFError,
       {| agent := agent w; file := file w; stdin := [];
          trace := trace w ++ tl |})
    /\ spawned tl = [] /\ reads tl = 0 /\ iterations tl = [].
Proof.
  intros Hlen. unfold main.
  rewrite bind_unfold. unfold log at 1.
  rewrite bind_unfold. unfold log at 1.
  rewrite bind_unfold. unfold read_inputs.
  rewrite bind_unfold. unfold input at 1. cbn [emit stdin].
  destruct (stdin w) as [|task [|reply rest]] eqn:Hin;
    [| |simpl in Hlen; lia].
  - eexists. split; [cbn [emit trace file agent]; rewrite <- !app_assoc; reflexivity|].
    cbn. auto.
  - rewrite bind_unfold. unfold input. cbn [stdin].
    eexists. split; [cbn [emit trace file agent]; rewrite <- !app_assoc; reflexivity|].
    cbn. auto.
Qed.

(** The frame of the whole script. *)
Lemma main_frame (fuel : nat) (w w' : world) (r : result (option unit)) :
  main fuel w = (r, w') ->
  agent w' = agent w
  /\ (keeps_file (agent w) -> file w' = file w)
  /\ exists tl,
       trace w' = trace w ++ tl
       /\ Forall is_command (spawned tl)
       /\ reads tl <= fuel
       /\ exists n, n <= fuel /\ iterations tl = count_from 1 n.
Proof.
  destruct (stdin w) as [|task [|reply rest]] eqn:Hin.
  1,2: destruct (main_short_input fuel w) as (tl & -> & Hs & Hr & Hit);
       [rewrite Hin; simpl; lia|];
       intros [= <- <-]; split; [reflexivity|]; split; [auto|];
       exists tl; split; [reflexivity|]; rewrite Hs, Hr, Hit;
       split; [constructor|]; split; [lia|]; exists 0; split; [lia|reflexivity].
  rewrite (main_unfold _ _ _ _ _ Hin).
  destruct (planning task (need_plan reply) _) as [rp w1] eqn:Hp.
  destruct (planning_frame _ _ _ _ _ Hp)
    as (Ha & _ & Hk & tl & Htl & Hc & Hr & Hit).
  cbn [after_inputs agent file trace] in Ha, Hk, Htl.
  rewrite <- app_assoc in Htl.
  destruct rp as [[]|e].
  - intros Hrun.
    destruct (run_loop_frame _ _ _ _ _ Hrun) as (Ha' & _ & Hk' & tl' & Htl' & Hc').
    destruct (run_loop_counts _ _ _ _ _ Hrun)
      as (tl'' & Htl'' & _ & _ & Hfuel & (n & Hn & Hitn) & _).
    assert (tl'' = tl') as -> by (rewrite Htl' in Htl''; eapply app_inv_head; eauto).
    split; [congruence|]. split.
    { intros Hkf. rewrite Hk', Hk; auto. rewrite Ha. exact Hkf. }
    eexists. split; [rewrite Htl', Htl, <- app_assoc; reflexivity|].
    rewrite !spawned_app, !reads_app, !iterations_app, Hr, Hit, Hitn.
    cbn. split; [apply Forall_app; auto|]. split; [lia|].
    exists n. split; [lia|reflexivity].
  - intros [= <- <-]. split; [exact Ha|]. split; [exact Hk|].
    eexists. split; [exact Htl|].
    rewrite !spawned_app, !reads_app, !iterations_app, Hr, Hit.
    cbn. split; [exact Hc|]. split; [lia|]. exists 0. split; [lia|reflexivity].
Qed.

(** ** Whole runs *)


(** X10: the script never writes the state file: when the agent leaves the
    file alone, the file at the end of a run, however it ends, is the file
    the run started with. *)
Theorem script_never_writes_state_file (fuel : nat) (w : world) :
  keeps_file (agent w) ->
  file (snd (main fuel w)) = file w.
Proof.
  intros Hk. destruct (main fuel w) as [r w'] eqn:Hm.
  destruct (main_frame _ _ _ _ Hm) as (_ & Hf & _). auto.
Qed.

Lemma script_never_writes_state_file_witness :
  file (snd (main 3 (world_of (idle_agent 0)
                       (Json (record "run tests" "pending"))
                       ["Fix bug #42"; "true"])))
  = Json (record "run tests" "pending").
Proof.
  apply (script_never_writes_state_file 3
           (world_of (idle_agent 0) (Json (record "run tests" "pending"))
              ["Fix bug #42"; "true"])).
  intros k cmd f. reflexivity.
Defined.



(** X12: the line "Starting command... (Iteration n)" is printed with
    n = 1, 2, 3, ... in this order, without gap or repetition, whatever the
    state file and the agent do, and at most once per pass. *)
Theorem iterations_are_consecutive (fuel : nat) (w : world) :
  exists tl n,
    trace (snd (main fuel w)) = trace w ++ tl
    /\ n <= fuel
    /\ iterations tl = count_from 1 n.
Proof.
  destruct (main fuel w) as [r w'] eqn:Hm.
  destruct (main_frame _ _ _ _ Hm) as (_ & _ & tl & Htl & _ & _ & n & Hn & Hit).
  exists tl, n. auto.
Qed.

(** With a plan the loop starts in the world the planning run left. *)
Lemma main_planned (fuel : nat) (w : world) (task reply : string) rest
    rc out err f' :
  stdin w = task :: reply :: rest ->
  need_plan reply = true ->
  agent w (calls w) (command ("/make_plan " +:+ task)) (file w)
  = (Exits rc out err, f') ->
  main fuel w =
  run_loop fuel 0
    {| agent := agent w; file := f'; stdin := rest;
       trace := trace (after_inputs w task reply rest)
                ++ [EvPrint (Str "Generating plan...");
                    EvPrint (FStr "Running Claude Code with prompt: "
                               (PStr ("/make_plan " +:+ task)) "");
                    EvSpawn (command ("/make_plan " +:+ task))
                      (Exits rc out err);
                    EvPrint (Str out)] |}.
Proof.
  intros Hin Hn Ha.
  rewrite (main_unfold _ _ _ _ _ Hin), Hn. unfold planning.
  rewrite bind_unfold. unfold print at 1, log at 1.
  rewrite bind_unfold.
  erewrite run_claude_code_exits; last first.
  { rewrite calls_emit by reflexivity. rewrite calls_after_inputs. exact Ha. }
  unfold print, log, emit. cbn [after_inputs trace file agent stdin].
  rewrite <- !app_assoc. reflexivity.
Qed.

(** X13: when a plan is asked for, the state file is first read after the
    planning subprocess has exited, and that read sees the file the
    subprocess left: the file need not exist when the script starts. *)
Theorem first_read_follows_the_plan
    (fuel : nat) (w : world) (task reply : string) (rest : list string)
    (rc : Z) (out err : string) (f' : state_file) :
  stdin w = task :: reply :: rest ->
  need_plan reply = true ->
  agent w (calls w) (command ("/make_plan " +:+ task)) (file w)
  = (Exits rc out err, f') ->
  exists before tl,
    trace (snd (main (S fuel) w))
    = trace w ++ before ++ EvRead (load f') :: tl
    /\ reads before = 0
    /\ spawned before = [command ("/make_plan " +:+ task)].
Proof.
  intros Hin Hn Ha.
  rewrite (main_planned _ _ _ _ _ _ _ _ _ Hin Hn Ha).
  destruct (run_loop (S fuel) 0 _) as [r w'] eqn:Hrun.
  destruct (run_loop_reads_first _ _ _ _ _ Hrun) as (tl & Htl).
  cbn [snd]. cbn [trace file after_inputs] in Htl.
  exists ([EvDeprecationWarning; EvStderr;
           EvInput "Enter the initial prompt for Claude Code: " (Some task);
           EvInput "Do you need a plan? (True/False): " (Some reply)]
          ++ [EvPrint (Str "Generating plan...");
              EvPrint (FStr "Running Claude Code with prompt: "
                         (PStr ("/make_plan " +:+ task)) "");
              EvSpawn (command ("/make_plan " +:+ task)) (Exits rc out err);
              EvPrint (Str out)]), tl.
  split; [rewrite Htl, <- !app_assoc; reflexivity|].
  split; reflexivity.
Qed.

Lemma first_read_follows_the_plan_witness :
  exists before tl,
    trace (snd (main 1 (world_of closing_agent NoFile ["Fix bug #42"; "true"])))
    = [] ++ before
      ++ EvRead (load (Json (record "nothing left" "completed"))) :: tl
    /\ reads before = 0
    /\ spawned before = [command ("/make_plan " +:+ "Fix bug #42")].
Proof.
  apply (first_read_follows_the_plan 0
           (world_of closing_agent NoFile ["Fix bug #42"; "true"])
           "Fix bug #42" "true" [] 0 "done" ""
           (Json (record "nothing left" "completed")));
    reflexivity.
Defined.

(** ** What the script never looks at *)

Lemma spawned_visible (tr : list event) :
  spawned (map visible_event tr) = spawned tr.
Proof.
  induction tr as [|e tr IH]; [reflexivity|].
  destruct e; simpl; rewrite IH; reflexivity.
Qed.

Lemma printed_visible (tr : list event) :
  printed (map visible_event tr) = printed tr.
Proof.
  induction tr as [|e tr IH]; [reflexivity|].
  destruct e; simpl; rewrite IH; reflexivity.
Qed.

Lemma alike_calls (w1 w2 : world) : alike w1 w2 -> calls w1 = calls w2.
Proof.
  intros (_ & _ & _ & Ht). unfold calls.
  rewrite <- (spawned_visible (trace w1)), Ht, spawned_visible. reflexivity.
Qed.

Lemma alike_emit (e : event) (w1 w2 : world) :
  alike w1 w2 -> alike (emit e w1) (emit e w2).
Proof.
  intros (Ha & Hf & Hi & Ht). repeat split; try assumption; try apply Ha.
  cbn [emit trace]. rewrite !map_app, Ht. reflexivity.
Qed.

Lemma respects_ret {A} (a : A) : respects (mret a).
Proof. intros w1 w2 H. split; [reflexivity|exact H]. Qed.

Lemma respects_raise {A} (e : exn_class) : respects (@raise A e).
Proof. intros w1 w2 H. split; [reflexivity|exact H]. Qed.

Lemma respects_lift {A} (r : result A) : respects (lift r).
Proof. intros w1 w2 H. split; [reflexivity|exact H]. Qed.

Lemma respects_log (e : event) : respects (log e).
Proof. intros w1 w2 H. split; [reflexivity|apply alike_emit, H]. Qed.

Lemma respects_bind {A B} (m : py A) (f : A -> py B) :
  respects m -> (forall a, respects (f a)) -> respects (m ≫= f).
Proof.
  intros Hm Hf w1 w2 H. rewrite !bind_unfold.
  destruct (Hm w1 w2 H) as (Hr & Hw).
  destruct (m w1) as [[a1|e1] w1'], (m w2) as [[a2|e2] w2'];
    simpl in Hr, Hw; try discriminate.
  - injection Hr as ->. apply Hf, Hw.
  - injection Hr as ->. split; [reflexivity|exact Hw].
Qed.

Lemma respects_input (prompt : string) : respects (input prompt).
Proof.
  intros w1 w2 (Ha & Hf & Hi & Ht). unfold input. rewrite Hi.
  destruct (stdin w2) as [|line rest]; (split; [reflexivity|]);
    (repeat split; try assumption; try apply Ha);
    cbn [trace snd]; rewrite !map_app, Ht; reflexivity.
Qed.

Lemma respects_check_state : respects check_state.
Proof.
  intros w1 w2 H. rewrite !check_state_eq. cbn [fst snd].
  destruct H as (Ha & Hf & Hi & Ht). rewrite Hf.
  split; [reflexivity|]. apply alike_emit. repeat split; try assumption;
    apply Ha.
Qed.

(** The invoker returns the same text, and leaves the same state file, when
    only the exit status and the standard error of the subprocess differ. *)
Lemma respects_run_claude_code (prompt : pyval) :
  respects (run_claude_code prompt).
Proof.
  intros w1 w2 H. rewrite !run_claude_code_eq. cbv zeta.
  pose proof (alike_emit
                (EvPrint (FStr "Running Claude Code with prompt: " prompt ""))
                _ _ H) as H'.
  destruct prompt as [| | | |p| |]; try (split; [reflexivity|exact H']).
  pose proof (alike_calls _ _ H) as Hc.
  destruct H as (Ha & Hf & Hi & Ht).
  destruct (Ha (calls w1) (command p) (file w1)) as (Hv & Hs).
  rewrite <- Hc, <- Hf. cbn [fst snd]. split.
  - destruct (fst (agent w1 _ _ _)), (fst (agent w2 _ _ _));
      simpl in Hv; congruence.
  - split; [exact Ha|]. split; [exact Hs|]. split; [exact Hi|].
    cbn [after_spawn emit trace]. rewrite !map_app, Ht. cbn [map visible_event].
    rewrite Hv. reflexivity.
Qed.

Lemma respects_loop_body (iteration : Z) : respects (loop_body iteration).
Proof.
  unfold loop_body.
  apply respects_bind; [apply respects_check_state|]. intros state.
  apply respects_bind; [apply respects_log|]. intros _.
  apply respects_bind; [apply respects_lift|]. intros prompt.
  apply respects_bind; [apply respects_run_claude_code|]. intros output.
  apply respects_bind; [apply respects_log|]. intros _.
  apply respects_bind; [apply respects_lift|]. intros status.
  destruct (eq_str status "completed"); [|apply respects_ret].
  apply respects_bind; [apply respects_log|]. intros _. apply respects_ret.
Qed.

Lemma respects_run_loop (fuel : nat) :
  forall iteration, respects (run_loop fuel iteration).
Proof.
  induction fuel as [|fuel IH]; intros iteration; [apply respects_ret|].
  cbn [run_loop].
  apply respects_bind; [apply respects_loop_body|]. intros [|];
    [apply IH|apply respects_ret].
Qed.

Lemma respects_main (fuel : nat) : respects (main fuel).
Proof.
  unfold main.
  apply respects_bind; [apply respects_log|]. intros _.
  apply respects_bind; [apply respects_log|]. intros _.
  apply respects_bind.
  { unfold read_inputs.
    apply respects_bind; [apply respects_input|]. intros task.
    apply respects_bind; [apply respects_input|]. intros reply.
    apply respects_ret. }
  intros [task b].
  apply respects_bind; [|intros _; apply respects_run_loop].
  unfold planning. destruct b; [|apply respects_ret].
  apply respects_bind; [apply respects_log|]. intros _.
  apply respects_bind; [apply respects_run_claude_code|]. intros out.
  apply respects_log.
Qed.

(** X14: the script never looks at the exit status nor at the standard error
    of the agent.  Two runs against agents that differ at most in these two
    end the same way (the same normal end, the same exception, or still
    running), print the same lines, run the same commands and leave the same
    state file. *)
Theorem exit_status_and_stderr_are_ignored (fuel : nat) (w1 w2 : world) :
  alike w1 w2 ->
  fst (main fuel w1) = fst (main fuel w2)
  /\ printed (trace (snd (main fuel w1))) = printed (trace (snd (main fuel w2)))
  /\ spawned (trace (snd (main fuel w1))) = spawned (trace (snd (main fuel w2)))
  /\ file (snd (main fuel w1)) = file (snd (main fuel w2)).
Proof.
  intros H. destruct (respects_main fuel w1 w2 H) as (Hr & _ & Hf & _ & Ht).
  split; [exact Hr|]. split; [|split; [|exact Hf]].
  - rewrite <- (printed_visible (trace (snd (main fuel w1)))), Ht.
    apply printed_visible.
  - rewrite <- (spawned_visible (trace (snd (main fuel w1)))), Ht.
    apply spawned_visible.
Qed.

Lemma exit_status_and_stderr_are_ignored_witness :
  fst (main 3 calm_run) = fst (main 3 loud_run)
  /\ printed (trace (snd (main 3 calm_run)))
     = printed (trace (snd (main 3 loud_run)))
  /\ spawned (trace (snd (main 3 calm_run)))
     = spawned (trace (snd (main 3 loud_run)))
  /\ file (snd (main 3 calm_run)) = file (snd (main 3 loud_run)).
Proof.
  apply (exit_status_and_stderr_are_ignored 3 calm_run loud_run).
  repeat split.
Defined.

(** The two runs end normally after the plan and one pass, and print the
    same seven lines. *)
Example calm_and_loud_runs :
  fst (main 3 loud_run) = Ok (Some tt)
  /\ length (printed (trace (snd (main 3 loud_run)))) = 7
  /\ spawned (trace (snd (main 3 loud_run)))
     = [command "/make_plan Fix bug #42"; command "run tests"].
Proof. vm_compute. repeat split. Qed.
